(** * Toaster Arena (mod.io plugin glue and overlay component)

  A shallow embedding of the three units of the repository:

  - [OptionalWrapper]: the preprocessor switch of
    [modio/detail/OptionalWrapper.h];
  - [ModioTests]: the latent automation command
    [FModioInitializeAsyncCommand] of [Tests/Commands/InitializeAsync.h];
  - [Overlay]: the component [UOverlayStaticMeshComponent] of
    [Rendering/OverlayStaticMeshComponent.h].

  Definitions come first, the properties follow. *)

From Stdlib Require Import ZArith SpecFloat.
From stdpp Require Import gmap strings list fin_maps.

Open Scope string_scope.
Open Scope list_scope.

(* ===================================================================== *)
(** * Part I: definitions *)
(* ===================================================================== *)

(** ** The optional-type shim, [OptionalWrapper.h] *)

Module OptionalWrapper.

(** The lines a header is made of, after comments are dropped. *)
Inductive Directive : Type :=
| PragmaOnce                          (* #pragma once *)
| IncludeQuoted (path : string)       (* #include "path" *)
| IncludeMacro (macro : string)       (* #include MACRO *)
| MacroStatement (name : string).     (* a macro used as a line *)

#[global] Instance Directive_eq_dec : EqDecision Directive.
Proof. solve_decision. Defined.

(** Controlling expressions of [#if] and [#elif]. *)
Inductive Cond : Type :=
| Defined_ (macro : string)           (* defined(macro) *)
| Or_ (a b : Cond).                   (* a || b *)

(** An [#if ... #elif ... #else ... #endif] group. *)
Record IfGroup : Type := {
  guarded : list (Cond * list Directive);
  otherwise : list Directive
}.

Inductive Item : Type :=
| Plain (d : Directive)
| Conditional (g : IfGroup).

Definition Header : Type := list Item.

(** A build configuration is the set of macros the compiler and the build
    system define. *)
Abbreviation Config := (gset string).

Fixpoint eval_cond (D : Config) (c : Cond) : bool :=
  match c with
  | Defined_ m => bool_decide (m ∈ D)
  | Or_ a b => eval_cond D a || eval_cond D b
  end.

(** The first group whose condition holds is kept, the [#else] group when
    none does. *)
Fixpoint select (D : Config) (gs : list (Cond * list Directive))
    (els : list Directive) : list Directive :=
  match gs with
  | [] => els
  | (c, body) :: rest => if eval_cond D c then body else select D rest els
  end.

Definition preprocess_item (D : Config) (i : Item) : list Directive :=
  match i with
  | Plain d => [d]
  | Conditional g => select D (guarded g) (otherwise g)
  end.

Definition preprocess (D : Config) (h : Header) : list Directive :=
  flat_map (preprocess_item D) h.

Definition tl_optional : string := "tl/optional.hpp".
Definition compiler_macros : string := "modio/detail/ModioCompilerMacros.h".

(** Lines 13-27: the Unreal branch. *)
Definition unreal_branch : list Directive :=
  [ IncludeMacro "MODIO_UNREAL_PLATFORM_PREAMBLE";
    IncludeQuoted compiler_macros;
    MacroStatement "DISABLE_WARNING_PUSH";
    MacroStatement "DISABLE_WARNING_NOT_IMPLICIT_CONSTRUCTOR";
    MacroStatement "DISABLE_WARNING_NOT_IMPLICIT_DESCTRUCTOR";
    IncludeQuoted tl_optional;
    MacroStatement "DISABLE_WARNING_POP";
    IncludeMacro "MODIO_UNREAL_PLATFORM_EPILOGUE" ].

(** Lines 28-38: the GNU/clang branch. *)
Definition gnu_branch : list Directive :=
  [ IncludeQuoted compiler_macros;
    MacroStatement "DISABLE_WARNING_PUSH";
    MacroStatement "DISABLE_WARNING_SIGNED_UNSIGNED_INTEGER_COMPARISON";
    IncludeQuoted tl_optional;
    MacroStatement "DISABLE_WARNING_POP" ].

(** Lines 39-41: the fallback branch. *)
Definition fallback_branch : list Directive :=
  [ IncludeQuoted tl_optional ].

(** The whole of [OptionalWrapper.h]. *)
Definition OptionalWrapper_h : Header :=
  [ Plain PragmaOnce;
    Conditional
      {| guarded :=
           [ (Defined_ "MODIO_PLATFORM_UNREAL", unreal_branch);
             (Or_ (Defined_ "__GNUC__") (Defined_ "__clang__"), gnu_branch) ];
         otherwise := fallback_branch |} ].

(** How often a translation unit names a quoted file. *)
Definition count_include (path : string) (ds : list Directive) : nat :=
  length (filter (λ d, d = IncludeQuoted path) ds).

(** The wrappers around the payload: the warning-suppression macros, the
    header that defines them, and the platform preamble and epilogue. *)
Definition is_wrapper (d : Directive) : bool :=
  match d with
  | MacroStatement n => String.prefix "DISABLE_WARNING_" n
  | IncludeQuoted p => bool_decide (p = compiler_macros)
  | IncludeMacro m =>
      bool_decide (m = "MODIO_UNREAL_PLATFORM_PREAMBLE")
      || bool_decide (m = "MODIO_UNREAL_PLATFORM_EPILOGUE")
  | PragmaOnce => false
  end.

(** What is left of a translation unit once the wrappers are taken off. *)
Definition payload (ds : list Directive) : list Directive :=
  filter (λ d, is_wrapper d = false) ds.





Definition platform_preamble : Directive :=
  IncludeMacro "MODIO_UNREAL_PLATFORM_PREAMBLE".
Definition platform_epilogue : Directive :=
  IncludeMacro "MODIO_UNREAL_PLATFORM_EPILOGUE".
Definition warning_push : Directive := MacroStatement "DISABLE_WARNING_PUSH".
Definition warning_pop : Directive := MacroStatement "DISABLE_WARNING_POP".

(** The lines that switch one warning off: the [DISABLE_WARNING_] macros
    other than the push and the pop. *)
Definition is_suppression (d : Directive) : bool :=
  match d with
  | MacroStatement n =>
      String.prefix "DISABLE_WARNING_" n
      && negb (bool_decide (d = warning_push))
      && negb (bool_decide (d = warning_pop))
  | _ => false
  end.

(** A walk over a translation unit that follows the stack of warning
    states: a push opens a scope, a pop closes the innermost one, and a
    suppression is only accepted inside a scope.  The result is the number
    of scopes left open, or [None] when a pop or a suppression is met
    outside every scope. *)
Fixpoint warning_scopes (depth : nat) (ds : list Directive) : option nat :=
  match ds with
  | [] => Some depth
  | d :: rest =>
      if bool_decide (d = warning_push) then warning_scopes (S depth) rest
      else if bool_decide (d = warning_pop) || is_suppression d then
        match depth with
        | O => None
        | S shallower =>
            warning_scopes
              (if bool_decide (d = warning_pop) then shallower else depth) rest
        end
      else warning_scopes depth rest
  end.

(** A walk that checks that no [DISABLE_WARNING_] macro is used before the
    header that defines them has been included. *)
Fixpoint macros_defined_before_use (included : bool) (ds : list Directive)
    : bool :=
  match ds with
  | [] => true
  | IncludeQuoted p :: rest =>
      macros_defined_before_use
        (included || bool_decide (p = compiler_macros)) rest
  | MacroStatement n :: rest =>
      (negb (String.prefix "DISABLE_WARNING_" n) || included)
      && macros_defined_before_use included rest
  | _ :: rest => macros_defined_before_use included rest
  end.

(** Any line that uses a [DISABLE_WARNING_] macro: push, pop or
    suppression. *)
Definition warning_line (d : Directive) : bool :=
  match d with
  | MacroStatement n => String.prefix "DISABLE_WARNING_" n
  | _ => false
  end.

(** An [#include MACRO] line names the file that the replacement text of
    [MACRO] gives; without a definition of [MACRO] the line is an error.
    [E] holds the macros a build defines, each with its replacement text. *)
Definition resolve_include (E : gmap string string) (d : Directive)
    : option Directive :=
  match d with
  | IncludeMacro m => IncludeQuoted <$> E !! m
  | _ => Some d
  end.

Definition resolve_includes (E : gmap string string) (ds : list Directive)
    : option (list Directive) :=
  mapM (resolve_include E) ds.

(** The lines of a header that a build keeps, with the file each include
    names; [None] when an include names no file. *)
Definition kept_lines (E : gmap string string) (h : Header)
    : option (list Directive) :=
  resolve_includes E (preprocess (dom E) h).



End OptionalWrapper.

(** ** The latent test command, [Tests/Commands/InitializeAsync.h] *)

Module ModioTests.

(** Modelled from the spec: [FModioErrorCode] is declared by the SDK, not by
    the sources at hand; it is "a single boolean-equivalent error code" whose
    falsy value means that no error occurred.  It carries the numeric code
    of the SDK, zero for success. *)
Record FModioErrorCode : Type := { ec_value : Z }.

(** The conversion to [bool] that comparing [ec] with [false] goes through. *)
Definition ec_to_bool (ec : FModioErrorCode) : bool :=
  negb (ec_value ec =? 0)%Z.

(** [UModioSDKLibrary::GetAutomationTestOptions()]: the one options value the
    command passes on; its contents are the SDK's. *)
Inductive FModioInitializeOptions : Type :=
| GetAutomationTestOptions.

#[global] Instance FModioInitializeOptions_eq_dec :
  EqDecision FModioInitializeOptions.
Proof. solve_decision. Defined.

(** [FOnErrorOnlyDelegateFast::CreateSP(this, &...::Callback)]: the only
    delegate the command ever makes is bound to its own [Callback]. *)
Inductive FOnErrorOnlyDelegateFast : Type :=
| CreateSP_Callback.

#[global] Instance FOnErrorOnlyDelegateFast_eq_dec :
  EqDecision FOnErrorOnlyDelegateFast.
Proof. solve_decision. Defined.

(** The calls the command makes on its collaborators, in program order. *)
Inductive Call : Type :=
| Call_InitializeAsync (opts : FModioInitializeOptions)
                       (on_done : FOnErrorOnlyDelegateFast)
| Call_TestEqual (what : string) (actual expected : bool)
| Call_Done.

#[global] Instance Call_eq_dec : EqDecision Call.
Proof. solve_decision. Defined.

(** Modelled from the spec: the engine's [FAutomationTestBase] behind
    [CurrentTest], "the test framework's assertion API".  An assertion that
    does not hold is recorded as an error of the test and the caller goes
    on. *)
Record FAutomationTestBase : Type := { errors : list string }.

(** Modelled from the spec: the SDK handle [Modio].  [InitializeAsync] is a
    "fire-and-forget asynchronous call": the SDK keeps the delegate and
    returns; the delegate is run later, when the SDK has finished. *)
Record UModioSubsystem : Type := { pending : list FOnErrorOnlyDelegateFast }.

(** The command with the two objects it refers to.  [bDone] is the "done"
    flag of the base class. *)
Record World : Type := {
  bDone : bool;
  CurrentTest : FAutomationTestBase;
  Modio : UModioSubsystem
}.

(** Methods run in a state monad over [World] that also writes down the
    calls made. *)
Definition Cmd (A : Type) : Type := World → A * World * list Call.

Definition ret {A : Type} (a : A) : Cmd A := λ w, (a, w, []).

Definition bind {A B : Type} (m : Cmd A) (k : A → Cmd B) : Cmd B :=
  λ w, let '(a, w1, t1) := m w in
       let '(b, w2, t2) := k a w1 in
       (b, w2, t1 ++ t2).

Declare Scope cmd_scope.
Delimit Scope cmd_scope with cmd.
Notation "m1 ;;; m2" := (bind m1 (λ _, m2))
  (at level 100, m2 at level 200, right associativity) : cmd_scope.

Definition result_of {A : Type} (m : Cmd A) (w : World) : A := (m w).1.1.
Definition state_after {A : Type} (m : Cmd A) (w : World) : World := (m w).1.2.
Definition calls_of {A : Type} (m : Cmd A) (w : World) : list Call := (m w).2.

(** [CurrentTest->TestEqual(What, Actual, Expected)]. *)
Definition TestEqual (what : string) (actual expected : bool) : Cmd unit :=
  λ w,
    let test :=
      if eqb actual expected then CurrentTest w
      else {| errors := errors (CurrentTest w) ++ [what] |} in
    (tt,
     {| bDone := bDone w; CurrentTest := test; Modio := Modio w |},
     [Call_TestEqual what actual expected]).

(** [Modio->InitializeAsync(Options, Delegate)]. *)
Definition InitializeAsync (opts : FModioInitializeOptions)
    (on_done : FOnErrorOnlyDelegateFast) : Cmd unit :=
  λ w,
    (tt,
     {| bDone := bDone w;
        CurrentTest := CurrentTest w;
        Modio := {| pending := pending (Modio w) ++ [on_done] |} |},
     [Call_InitializeAsync opts on_done]).

(** Modelled from the spec: [FModioTestLatentCommandBase::Done] of the base
    class in [Tests/Commands/ModioTestCommandBase.h], which is not among the
    sources: it raises the "done" flag. *)
Definition Done : Cmd unit :=
  λ w,
    (tt,
     {| bDone := true; CurrentTest := CurrentTest w; Modio := Modio w |},
     [Call_Done]).

(** Modelled from the spec: [FModioTestLatentCommandBase::Update], inherited
    through the using-declaration on line 20: it "polls a done flag each
    engine tick", and the command is over once it answers true. *)
Definition Update : Cmd bool := λ w, (bDone w, w, []).

(** Lines 21-25. *)
Definition Start : Cmd unit :=
  InitializeAsync GetAutomationTestOptions CreateSP_Callback.

(** Lines 26-30. *)
Definition Callback (ec : FModioErrorCode) : Cmd unit :=
  (TestEqual "SDK initializes completes without errors" (ec_to_bool ec) false ;;;
   Done)%cmd.

(** Running a delegate runs the method it is bound to. *)
Definition Execute (d : FOnErrorOnlyDelegateFast) (ec : FModioErrorCode)
    : Cmd unit :=
  match d with
  | CreateSP_Callback => Callback ec
  end.

(** What happens to a started command: the engine ticks it, and the SDK
    finishes a request and runs the delegate it was given. *)
Inductive LifecycleEvent : Type :=
| EngineTick
| SdkCompletes (ec : FModioErrorCode).

Definition is_completion (e : LifecycleEvent) : bool :=
  match e with
  | EngineTick => false
  | SdkCompletes _ => true
  end.

Definition on_event (e : LifecycleEvent) (w : World) : World :=
  match e with
  | EngineTick => state_after Update w
  | SdkCompletes ec =>
      match pending (Modio w) with
      | [] => w
      | d :: rest =>
          state_after (Execute d ec)
            {| bDone := bDone w;
               CurrentTest := CurrentTest w;
               Modio := {| pending := rest |} |}
      end
  end.

Definition run (es : list LifecycleEvent) (w : World) : World :=
  foldl (λ w e, on_event e w) w es.

(** The number of assertions among the calls made. *)
Definition is_assertion (c : Call) : bool :=
  match c with
  | Call_TestEqual _ _ _ => true
  | _ => false
  end.

Definition count_assertions (cs : list Call) : nat :=
  length (filter (λ c, is_assertion c = true) cs).

(** The error code of the first completion among the events, if any. *)
Fixpoint first_completion (es : list LifecycleEvent)
    : option FModioErrorCode :=
  match es with
  | [] => None
  | EngineTick :: rest => first_completion rest
  | SdkCompletes ec :: _ => Some ec
  end.

(** A command that has not run yet: not done, a test without errors and an
    SDK that holds no delegate. *)
Definition idle_world : World :=
  {| bDone := false;
     CurrentTest := {| errors := [] |};
     Modio := {| pending := [] |} |}.

End ModioTests.

(** ** The overlay component, [Rendering/OverlayStaticMeshComponent.h] *)

Module Overlay.

(** A pointer to an engine object; [None] is [nullptr]. *)
Abbreviation Ptr := (option positive).

(** The engine objects that material pointers refer to.  A dynamic material
    instance is "a per-instance runtime copy of a shared rendering
    material", which it keeps as its parent. *)
Inductive UObject : Type :=
| UMaterial (asset : string)
| UMaterialInstanceDynamic (Parent : Ptr).

#[global] Instance UObject_eq_dec : EqDecision UObject.
Proof. solve_decision. Defined.

(** Modelled from the spec: the engine base class [UStaticMeshComponent], of
    which the spec keeps "a static-mesh reference". *)
Record UStaticMeshComponent : Type := { StaticMesh : Ptr }.

(** Lines 7-26: the base class and the four data members. *)
Record UOverlayStaticMeshComponent : Type := {
  Super : UStaticMeshComponent;
  bAutoCreateDynamicOverlay : bool;
  OverlayMaterial : Ptr;
  OverlayMaterialDynamic : Ptr;
  OverlayValue : spec_float
}.

(** The member initialisers of lines 14, 22 and 26.  [OverlayMaterial] has
    none, so its first value is whatever the caller provides. *)
Definition default_constructed (base : UStaticMeshComponent)
    (unset_material : Ptr) : UOverlayStaticMeshComponent :=
  {| Super := base;
     bAutoCreateDynamicOverlay := true;
     OverlayMaterial := unset_material;
     OverlayMaterialDynamic := None;
     OverlayValue := S754_zero false |}.

(** The state of a component as the tuple of its parts, and back. *)
Definition fields_of (c : UOverlayStaticMeshComponent)
    : UStaticMeshComponent * bool * Ptr * Ptr * spec_float :=
  (Super c, bAutoCreateDynamicOverlay c, OverlayMaterial c,
   OverlayMaterialDynamic c, OverlayValue c).

Definition of_fields
    (t : UStaticMeshComponent * bool * Ptr * Ptr * spec_float)
    : UOverlayStaticMeshComponent :=
  let '(base, auto, material, dynamic, value) := t in
  {| Super := base;
     bAutoCreateDynamicOverlay := auto;
     OverlayMaterial := material;
     OverlayMaterialDynamic := dynamic;
     OverlayValue := value |}.

(** A component together with the engine objects alive around it. *)
Record World : Type := {
  self : UOverlayStaticMeshComponent;
  objects : gmap positive UObject
}.

(** Member functions change the world and give a result; [const] member
    functions only read it. *)
Definition Method (A : Type) : Type := World → A * World.
Definition ConstMethod (A : Type) : Type := World → A.

Definition call_const {A : Type} (q : ConstMethod A) : Method A :=
  λ w, (q w, w).

Definition result_of {A : Type} (m : Method A) (w : World) : A := (m w).1.
Definition state_after {A : Type} (m : Method A) (w : World) : World :=
  (m w).2.

(** [UMaterialInstanceDynamic::Create(Parent, Outer)] of the engine: a new
    object, at an address not in use, whose parent is [Parent]. *)
Definition UMaterialInstanceDynamic_Create (Parent : Ptr) : Method Ptr :=
  λ w,
    let address := fresh (dom (objects w)) in
    (Some address,
     {| self := self w;
        objects := <[address := UMaterialInstanceDynamic Parent]> (objects w) |}).

(** Modelled from the spec: the body of [GetOverlayMaterial] (line 30) is in
    the .cpp file, which is not among the sources.  It is the getter of a
    "property getter/setter pair"; the header says "Get the overlay
    material". *)
Definition GetOverlayMaterial : Method Ptr :=
  call_const (λ w, OverlayMaterial (self w)).

(** Modelled from the spec: the body of [SetOverlayMaterial] (line 34) is in
    the .cpp file, which is not among the sources.  The header says "Set the
    overlay material, will auto-create dynamic instance if enabled", and the
    spec that "the dynamic instance, if present, mirrors the configured
    material". *)
Definition SetOverlayMaterial (InMaterial : Ptr) : Method unit :=
  λ w,
    let c := self w in
    if bAutoCreateDynamicOverlay c then
      let '(dynamic, w1) := UMaterialInstanceDynamic_Create InMaterial w in
      (tt,
       {| self :=
            {| Super := Super c;
               bAutoCreateDynamicOverlay := bAutoCreateDynamicOverlay c;
               OverlayMaterial := InMaterial;
               OverlayMaterialDynamic := dynamic;
               OverlayValue := OverlayValue c |};
          objects := objects w1 |})
    else
      (tt,
       {| self :=
            {| Super := Super c;
               bAutoCreateDynamicOverlay := bAutoCreateDynamicOverlay c;
               OverlayMaterial := InMaterial;
               OverlayMaterialDynamic := OverlayMaterialDynamic c;
               OverlayValue := OverlayValue c |};
          objects := objects w |}).

(** The remaining queries of lines 36-38.  Their bodies are in the .cpp
    file; the header fixes their parameters, their results and that they
    are [const], which is all that is used of them here. *)
Class QueryBodies : Type := {
  used_materials : list Ptr → bool → ConstMethod (list Ptr);
  overlay_material_index : ConstMethod Z;
  material_at : Z → ConstMethod Ptr
}.

(** [OutMaterials] is passed by reference: the array after the call is the
    result. *)
Definition GetUsedMaterials `{QueryBodies} (OutMaterials : list Ptr)
    (bGetDebugMaterials : bool) : Method (list Ptr) :=
  call_const (used_materials OutMaterials bGetDebugMaterials).

Definition GetOverlayMaterialIndex `{QueryBodies} : Method Z :=
  call_const overlay_material_index.

Definition GetMaterial `{QueryBodies} (MaterialIndex : Z) : Method Ptr :=
  call_const (material_at MaterialIndex).

(** The calls of the setter and of the four [const] queries.  The other
    member functions of the header (lines 41-54) have their bodies in the
    .cpp file and nothing is said of what they do; they are not among the
    operations. *)
Inductive Operation : Type :=
| Op_SetOverlayMaterial (InMaterial : Ptr)
| Op_GetOverlayMaterial
| Op_GetUsedMaterials (OutMaterials : list Ptr) (bGetDebugMaterials : bool)
| Op_GetOverlayMaterialIndex
| Op_GetMaterial (MaterialIndex : Z).

Definition perform `{QueryBodies} (op : Operation) (w : World) : World :=
  match op with
  | Op_SetOverlayMaterial m => state_after (SetOverlayMaterial m) w
  | Op_GetOverlayMaterial => state_after GetOverlayMaterial w
  | Op_GetUsedMaterials out dbg => state_after (GetUsedMaterials out dbg) w
  | Op_GetOverlayMaterialIndex => state_after GetOverlayMaterialIndex w
  | Op_GetMaterial i => state_after (GetMaterial i) w
  end.

Definition perform_all `{QueryBodies} (ops : list Operation) (w : World)
    : World :=
  foldl (λ w op, perform op w) w ops.

(** "The dynamic instance, if present, mirrors the configured material":
    when [OverlayMaterialDynamic] is not null it points to a dynamic
    instance whose parent is [OverlayMaterial]. *)
Definition dynamic_mirrors_configured (w : World) : Prop :=
  match OverlayMaterialDynamic (self w) with
  | None => True
  | Some address =>
      objects w !! address
        = Some (UMaterialInstanceDynamic (OverlayMaterial (self w)))
  end.

#[global] Instance dynamic_mirrors_configured_dec (w : World) :
  Decision (dynamic_mirrors_configured w).
Proof.
  unfold dynamic_mirrors_configured.
  destruct (OverlayMaterialDynamic (self w)); apply _.
Defined.

(** What the operations keep true: the dynamic instance mirrors the
    configured material, and there is none while auto-creation is off. *)
Definition overlay_consistent (w : World) : Prop :=
  dynamic_mirrors_configured w
  ∧ (bAutoCreateDynamicOverlay (self w) = false →
     OverlayMaterialDynamic (self w) = None).







End Overlay.

(* ===================================================================== *)
(** * Part II: properties *)
(* ===================================================================== *)

Section OptionalWrapperProperties.
Import OptionalWrapper.

Lemma preprocess_cases (D : Config) :
  preprocess D OptionalWrapper_h =
    PragmaOnce ::
      (if bool_decide ("MODIO_PLATFORM_UNREAL" ∈ D) then unreal_branch
       else if bool_decide ("__GNUC__" ∈ D) || bool_decide ("__clang__" ∈ D)
            then gnu_branch else fallback_branch).
Proof.
  unfold preprocess, OptionalWrapper_h. cbn.
  rewrite app_nil_r. reflexivity.
Qed.

(** C5: whatever the build configuration defines, the translation unit that
    the shim expands to names [tl/optional.hpp] exactly once, and with the
    warning-suppression and platform wrappers taken off it is the same two
    lines in every configuration. *)
Theorem optional_shim_same_payload (D : Config) :
  count_include tl_optional (preprocess D OptionalWrapper_h) = 1
  ∧ payload (preprocess D OptionalWrapper_h)
    = [PragmaOnce; IncludeQuoted tl_optional]
  ∧ payload unreal_branch = fallback_branch
  ∧ payload gnu_branch = fallback_branch.
Proof.
  rewrite preprocess_cases.
  destruct (bool_decide ("MODIO_PLATFORM_UNREAL" ∈ D));
    [ | destruct (bool_decide ("__GNUC__" ∈ D) || bool_decide ("__clang__" ∈ D)) ];
    repeat split; vm_compute; reflexivity.
Qed.

(** The three branches are each taken by some configuration. *)
Example unreal_build :
  preprocess {[ "MODIO_PLATFORM_UNREAL"; "__clang__" ]} OptionalWrapper_h
  = PragmaOnce :: unreal_branch.
Proof. vm_compute. reflexivity. Qed.

Example clang_build :
  preprocess {[ "__clang__" ]} OptionalWrapper_h = PragmaOnce :: gnu_branch.
Proof. vm_compute. reflexivity. Qed.

Example other_build :
  preprocess {[ "_MSC_VER" ]} OptionalWrapper_h = PragmaOnce :: fallback_branch.
Proof. vm_compute. reflexivity. Qed.

End OptionalWrapperProperties.

Section ModioTestsProperties.
Import ModioTests.

Lemma Callback_unfold (ec : FModioErrorCode) (w : World) :
  Callback ec w =
    (tt,
     {| bDone := true;
        CurrentTest :=
          if eqb (ec_to_bool ec) false then CurrentTest w
          else {| errors := errors (CurrentTest w)
                              ++ ["SDK initializes completes without errors"] |};
        Modio := Modio w |},
     [Call_TestEqual "SDK initializes completes without errors"
        (ec_to_bool ec) false;
      Call_Done]).
Proof. reflexivity. Qed.

Lemma on_event_keeps_done (e : LifecycleEvent) (w : World) :
  bDone w = true → bDone (on_event e w) = true.
Proof.
  intros Hdone. destruct e as [|ec]; cbn.
  - exact Hdone.
  - destruct (pending (Modio w)) as [|[] rest]; [exact Hdone | reflexivity].
Qed.

Lemma run_keeps_done (es : list LifecycleEvent) :
  ∀ w, bDone w = true → bDone (run es w) = true.
Proof.
  induction es as [|e es IH]; intros w Hdone; cbn.
  - exact Hdone.
  - apply IH, on_event_keeps_done, Hdone.
Qed.

Lemma run_in_flight (es : list LifecycleEvent) :
  ∀ w, pending (Modio w) ≠ [] →
       bDone (run es w) = bDone w || existsb is_completion es.
Proof.
  induction es as [|e es IH]; intros w Hpending; cbn.
  - by rewrite orb_false_r.
  - destruct e as [|ec]; cbn.
    + by apply IH.
    + destruct (pending (Modio w)) as [|[] rest]; [done |].
      rewrite orb_true_r. by apply run_keeps_done.
Qed.

(** An error code of 20 makes the assertion fail; the test gets the error
    and the command is done. *)
Example Callback_on_error :
  state_after (Callback {| ec_value := 20 |})
    {| bDone := false;
       CurrentTest := {| errors := [] |};
       Modio := {| pending := [] |} |}
  = {| bDone := true;
       CurrentTest :=
         {| errors := ["SDK initializes completes without errors"] |};
       Modio := {| pending := [] |} |}.
Proof. reflexivity. Qed.

(** A started command stays pending over two ticks and is done at the tick
    after the SDK has completed without error. *)
Example lifecycle_of_a_run :
  let started :=
    state_after Start
      {| bDone := false;
         CurrentTest := {| errors := [] |};
         Modio := {| pending := [] |} |} in
  result_of Update (run [EngineTick; EngineTick] started) = false
  ∧ run [EngineTick; EngineTick; SdkCompletes {| ec_value := 0 |}] started
    = {| bDone := true;
         CurrentTest := {| errors := [] |};
         Modio := {| pending := [] |} |}.
Proof. split; reflexivity. Qed.

(** C1: whatever error code the SDK hands to [Callback], the calls it makes
    are one [TestEqual] of the code against [false] followed by [Done]; the
    code is used nowhere else: the SDK handle is left alone, and neither the
    calls besides the assertion nor the "done" flag depend on it. *)
Theorem Callback_one_assertion (ec : FModioErrorCode) (w : World) :
  calls_of (Callback ec) w
    = [Call_TestEqual "SDK initializes completes without errors"
         (ec_to_bool ec) false;
       Call_Done]
  ∧ count_assertions (calls_of (Callback ec) w) = 1
  ∧ Modio (state_after (Callback ec) w) = Modio w
  ∧ ∀ ec' : FModioErrorCode,
      filter (λ c, is_assertion c = false) (calls_of (Callback ec') w)
        = filter (λ c, is_assertion c = false) (calls_of (Callback ec) w)
      ∧ bDone (state_after (Callback ec') w)
        = bDone (state_after (Callback ec) w).
Proof.
  unfold calls_of, state_after. rewrite Callback_unfold.
  repeat split; intros; rewrite ?Callback_unfold; reflexivity.
Qed.

(** C4: [Start] makes one call, [Modio->InitializeAsync] with the automation
    options and a delegate bound to [Callback], and nothing else: it leaves
    the "done" flag and the test as they were and only hands the delegate to
    the SDK.  From then on the polled [Update] answers true exactly when the
    flag was already up or the SDK has completed in the meantime. *)
Theorem Start_one_fire_and_forget_call
    (w : World) (es : list LifecycleEvent) :
  calls_of Start w
    = [Call_InitializeAsync GetAutomationTestOptions CreateSP_Callback]
  ∧ bDone (state_after Start w) = bDone w
  ∧ CurrentTest (state_after Start w) = CurrentTest w
  ∧ pending (Modio (state_after Start w))
    = pending (Modio w) ++ [CreateSP_Callback]
  ∧ result_of Update (run es (state_after Start w))
    = bDone w || existsb is_completion es.
Proof.
  repeat split.
  change (bDone (run es (state_after Start w))
          = bDone (state_after Start w) || existsb is_completion es).
  apply run_in_flight. cbn. by destruct (pending (Modio w)).
Qed.

(** C7: for every error code, also one that makes the assertion fail,
    [Callback] calls [Done] after the assertion: a failed assertion is
    recorded in the test and the "done" flag is raised all the same, and
    every later [Update] answers true. *)
Theorem Callback_always_done
    (ec : FModioErrorCode) (w : World) (later : list LifecycleEvent) :
  calls_of (Callback ec) w
    = [Call_TestEqual "SDK initializes completes without errors"
         (ec_to_bool ec) false]
      ++ [Call_Done]
  ∧ errors (CurrentTest (state_after (Callback ec) w))
    = errors (CurrentTest w)
      ++ (if ec_to_bool ec
          then ["SDK initializes completes without errors"] else [])
  ∧ bDone (state_after (Callback ec) w) = true
  ∧ result_of Update (run later (state_after (Callback ec) w)) = true.
Proof.
  unfold calls_of, state_after. rewrite Callback_unfold. cbn.
  repeat split.
  - destruct (ec_to_bool ec); cbn; [reflexivity | by rewrite app_nil_r].
  - change (bDone (run later
      {| bDone := true;
         CurrentTest :=
           if eqb (ec_to_bool ec) false then CurrentTest w
           else {| errors := errors (CurrentTest w)
                     ++ ["SDK initializes completes without errors"] |};
         Modio := Modio w |}) = true).
    by apply run_keeps_done.
Qed.

End ModioTestsProperties.

Section OverlayProperties.
Import Overlay.
Context `{QueryBodies}.

(** A call of a [const] member function gives the world back as it was. *)
Lemma call_const_state {A : Type} (q : ConstMethod A) (w : World) :
  state_after (call_const q) w = w.
Proof. reflexivity. Qed.

(** With auto-creation enabled the setter makes a new dynamic instance of
    the material it is given. *)
Lemma SetOverlayMaterial_auto_creates (InMaterial : Ptr) (w : World) :
  bAutoCreateDynamicOverlay (self w) = true →
  ∃ address,
    (address ∉ dom (objects w))
    ∧ OverlayMaterialDynamic (self (state_after (SetOverlayMaterial InMaterial) w))
      = Some address
    ∧ objects (state_after (SetOverlayMaterial InMaterial) w) !! address
      = Some (UMaterialInstanceDynamic InMaterial).
Proof.
  intros Hauto. exists (fresh (dom (objects w))).
  unfold state_after, SetOverlayMaterial. rewrite Hauto. cbn.
  split; [apply is_fresh | split; [reflexivity | apply lookup_insert_eq]].
Qed.

(** The setter never touches the flag. *)
Lemma SetOverlayMaterial_keeps_flag (InMaterial : Ptr) (w : World) :
  bAutoCreateDynamicOverlay (self (state_after (SetOverlayMaterial InMaterial) w))
  = bAutoCreateDynamicOverlay (self w).
Proof.
  unfold state_after, SetOverlayMaterial.
  by destruct (bAutoCreateDynamicOverlay (self w)).
Qed.

Lemma SetOverlayMaterial_consistent (InMaterial : Ptr) (w : World) :
  overlay_consistent w →
  overlay_consistent (state_after (SetOverlayMaterial InMaterial) w).
Proof.
  intros [_ Hoff]. unfold overlay_consistent, dynamic_mirrors_configured.
  unfold state_after, SetOverlayMaterial.
  destruct (bAutoCreateDynamicOverlay (self w)) eqn:Hauto; cbn.
  - split; [apply lookup_insert_eq | done].
  - rewrite (Hoff eq_refl). done.
Qed.

Lemma perform_consistent (op : Operation) (w : World) :
  overlay_consistent w → overlay_consistent (perform op w).
Proof.
  destruct op; cbn; try done. apply SetOverlayMaterial_consistent.
Qed.

Lemma perform_all_consistent (ops : list Operation) :
  ∀ w, overlay_consistent w → overlay_consistent (perform_all ops w).
Proof.
  induction ops as [|op ops IH]; intros w Hw; cbn; [done |].
  by apply IH, perform_consistent.
Qed.




(** C3: a call of [GetOverlayMaterial] after [SetOverlayMaterial(M)] gives
    [M], for every material and every state of the component. *)
Theorem GetOverlayMaterial_after_Set (M : Ptr) (w : World) :
  result_of GetOverlayMaterial (state_after (SetOverlayMaterial M) w) = M.
Proof.
  unfold result_of, state_after, GetOverlayMaterial, SetOverlayMaterial, call_const.
  by destruct (bAutoCreateDynamicOverlay (self w)).
Qed.

(** C6: the state of a component is its base part, with the static-mesh
    reference, the auto-create flag, the configured material, the dynamic
    instance, which may be null, and the overlay value, and nothing else:
    components and such tuples correspond one to one. *)
Theorem component_state_is_its_fields :
  (∀ c : UOverlayStaticMeshComponent, of_fields (fields_of c) = c)
  ∧ (∀ t, fields_of (of_fields t) = t)
  ∧ (∀ mesh auto material value,
       OverlayMaterialDynamic
         (of_fields ({| StaticMesh := mesh |}, auto, material, None, value))
       = None).
Proof.
  split; [by intros [] | split; [by intros [[[[] ?] ?] ?] | done]].
Qed.

(** C8: a default-constructed component has auto-creation enabled, no
    dynamic instance and the overlay value 0.0. *)
Theorem default_constructed_fields
    (base : UStaticMeshComponent) (unset_material : Ptr) :
  bAutoCreateDynamicOverlay (default_constructed base unset_material) = true
  ∧ OverlayMaterialDynamic (default_constructed base unset_material) = None
  ∧ OverlayValue (default_constructed base unset_material) = S754_zero false.
Proof. done. Qed.

(** C9: the four [const] queries leave every field of the component as it
    was, in every state. *)
Theorem const_queries_keep_fields
    (w : World) (OutMaterials : list Ptr) (bGetDebugMaterials : bool)
    (MaterialIndex : Z) :
  Forall
    (λ w', OverlayMaterial (self w') = OverlayMaterial (self w)
           ∧ OverlayMaterialDynamic (self w') = OverlayMaterialDynamic (self w)
           ∧ OverlayValue (self w') = OverlayValue (self w)
           ∧ bAutoCreateDynamicOverlay (self w')
             = bAutoCreateDynamicOverlay (self w))
    [ state_after GetOverlayMaterial w;
      state_after (GetUsedMaterials OutMaterials bGetDebugMaterials) w;
      state_after GetOverlayMaterialIndex w;
      state_after (GetMaterial MaterialIndex) w ].
Proof.
  unfold GetOverlayMaterial, GetUsedMaterials, GetOverlayMaterialIndex,
    GetMaterial.
  rewrite !call_const_state. by repeat constructor.
Qed.

End OverlayProperties.



(* ===================================================================== *)
(** * Part III: further properties of the shim and of the test command *)
(* ===================================================================== *)

Section OptionalWrapperFurther.
Import OptionalWrapper.




(** Case analysis on the three macros the shim tests. *)
Ltac shim_cases D :=
  rewrite (preprocess_cases D);
  destruct (decide ("MODIO_PLATFORM_UNREAL" ∈ D)) as [Hunreal | Hunreal];
  [ rewrite (bool_decide_true _ Hunreal)
  | rewrite (bool_decide_false _ Hunreal);
    destruct (decide ("__GNUC__" ∈ D)) as [Hgnu | Hgnu];
    [ rewrite (bool_decide_true _ Hgnu)
    | rewrite (bool_decide_false _ Hgnu);
      destruct (decide ("__clang__" ∈ D)) as [Hclang | Hclang];
      [ rewrite (bool_decide_true _ Hclang)
      | rewrite (bool_decide_false _ Hclang) ] ] ];
  cbn [orb].


(** X2: in every configuration the warning scopes of the shim are well
    nested: each suppression stands between a push and its pop, and no
    scope is left open for the including file. *)
Theorem shim_warning_scopes_closed (D : Config) :
  warning_scopes 0 (preprocess D OptionalWrapper_h) = Some 0.
Proof. shim_cases D; reflexivity. Qed.

(** X3: in a build that defines one of the three macros the warning lines
    of the shim are one scope around [tl/optional.hpp] alone: a push, then
    the suppressions and nothing else, then the include of
    [tl/optional.hpp], then at once the pop; no warning line stands
    anywhere else.  In a build that defines none of them the shim has no
    warning line at all. *)
Theorem shim_suppressions_surround_optional (D : Config) :
  ∃ before suppressions after,
    preprocess D OptionalWrapper_h
      = before
        ++ (if bool_decide ("MODIO_PLATFORM_UNREAL" ∈ D
                            ∨ "__GNUC__" ∈ D ∨ "__clang__" ∈ D)
            then warning_push :: suppressions
                 ++ [IncludeQuoted tl_optional; warning_pop]
            else [IncludeQuoted tl_optional])
        ++ after
    ∧ Forall (λ d, warning_line d = false) before
    ∧ Forall (λ d, warning_line d = false) after
    ∧ Forall (λ d, is_suppression d = true) suppressions
    ∧ (suppressions = []
       ↔ ¬ ("MODIO_PLATFORM_UNREAL" ∈ D ∨ "__GNUC__" ∈ D ∨ "__clang__" ∈ D)).
Proof.
  shim_cases D.
  1: exists (PragmaOnce :: take 2 unreal_branch),
            (take 2 (drop 3 unreal_branch)), (drop 7 unreal_branch).
  2,3: exists (PragmaOnce :: take 1 gnu_branch),
              (take 1 (drop 2 gnu_branch)), [].
  4: exists [PragmaOnce], [], [].
  1,2,3: rewrite bool_decide_true by tauto.
  4: rewrite bool_decide_false by tauto.
  all: split; [reflexivity |];
    split; [repeat constructor |];
    split; [repeat constructor |];
    split; [repeat constructor |];
    cbn; split; intros; try discriminate; tauto.
Qed.

(** X4: the platform preamble and epilogue are included exactly in the
    configurations that define [MODIO_PLATFORM_UNREAL], and no other file
    is ever included through a macro. *)
Theorem shim_platform_includes_iff_unreal (D : Config) :
  (platform_preamble ∈ preprocess D OptionalWrapper_h
     ↔ "MODIO_PLATFORM_UNREAL" ∈ D)
  ∧ (platform_epilogue ∈ preprocess D OptionalWrapper_h
     ↔ "MODIO_PLATFORM_UNREAL" ∈ D)
  ∧ ∀ m, IncludeMacro m ∈ preprocess D OptionalWrapper_h →
         IncludeMacro m = platform_preamble
         ∨ IncludeMacro m = platform_epilogue.
Proof.
  unfold platform_preamble, platform_epilogue.
  shim_cases D;
    unfold unreal_branch, gnu_branch, fallback_branch;
    (split; [| split]);
    try intros m; rewrite !list_elem_of_In; cbn; intuition congruence.
Qed.

(** X5: which warnings the shim switches off is decided by the three
    macros: the sign-comparison warning only in a GNU or clang build that is
    not an Unreal build, the two implicit-constructor and destructor
    warnings only in an Unreal build, and no other warning at all. *)
Theorem shim_suppressions_by_platform (D : Config) :
  (MacroStatement "DISABLE_WARNING_SIGNED_UNSIGNED_INTEGER_COMPARISON"
     ∈ preprocess D OptionalWrapper_h
   ↔ ("MODIO_PLATFORM_UNREAL" ∉ D) ∧ ("__GNUC__" ∈ D ∨ "__clang__" ∈ D))
  ∧ (MacroStatement "DISABLE_WARNING_NOT_IMPLICIT_CONSTRUCTOR"
       ∈ preprocess D OptionalWrapper_h
     ↔ "MODIO_PLATFORM_UNREAL" ∈ D)
  ∧ (MacroStatement "DISABLE_WARNING_NOT_IMPLICIT_DESCTRUCTOR"
       ∈ preprocess D OptionalWrapper_h
     ↔ "MODIO_PLATFORM_UNREAL" ∈ D)
  ∧ ∀ d, d ∈ preprocess D OptionalWrapper_h → is_suppression d = true →
         d ∈ [ MacroStatement "DISABLE_WARNING_SIGNED_UNSIGNED_INTEGER_COMPARISON";
               MacroStatement "DISABLE_WARNING_NOT_IMPLICIT_CONSTRUCTOR";
               MacroStatement "DISABLE_WARNING_NOT_IMPLICIT_DESCTRUCTOR" ].
Proof.
  shim_cases D;
    unfold unreal_branch, gnu_branch, fallback_branch;
    (split; [| split; [| split]]);
    try (rewrite !list_elem_of_In; cbn; intuition congruence);
    intros d; rewrite !list_elem_of_In; cbn;
    intros Hin Hsup; intuition (subst; try discriminate; auto).
Qed.

(** X6: in every configuration each [DISABLE_WARNING_] macro is used only
    after [ModioCompilerMacros.h] has been included, and that header is
    included exactly when one of the three macros is defined.  The shim
    names no file but these two in quotes, and the fallback build is the
    include of [tl/optional.hpp] and nothing else. *)
Theorem shim_macros_defined_before_use (D : Config) :
  macros_defined_before_use false (preprocess D OptionalWrapper_h) = true
  ∧ (IncludeQuoted compiler_macros ∈ preprocess D OptionalWrapper_h
     ↔ "MODIO_PLATFORM_UNREAL" ∈ D ∨ "__GNUC__" ∈ D ∨ "__clang__" ∈ D)
  ∧ (∀ p, IncludeQuoted p ∈ preprocess D OptionalWrapper_h →
          p = compiler_macros ∨ p = tl_optional)
  ∧ (("MODIO_PLATFORM_UNREAL" ∈ D ∨ "__GNUC__" ∈ D ∨ "__clang__" ∈ D)
     ∨ preprocess D OptionalWrapper_h
       = [PragmaOnce; IncludeQuoted tl_optional]).
Proof.
  split; [shim_cases D; reflexivity |].
  split; [| split].
  - shim_cases D; unfold unreal_branch, gnu_branch, fallback_branch;
      rewrite !list_elem_of_In; cbn; intuition discriminate.
  - intros p. shim_cases D;
      unfold unreal_branch, gnu_branch, fallback_branch;
      rewrite !list_elem_of_In; cbn; intuition congruence.
  - shim_cases D; tauto || (right; reflexivity).
Qed.

End OptionalWrapperFurther.


(** An Unreal build that does not say which file the preamble is keeps no
    lines: its first include names no file. *)
Example unreal_build_without_preamble :
  OptionalWrapper.kept_lines
    {[ "MODIO_PLATFORM_UNREAL" := "1";
       "MODIO_UNREAL_PLATFORM_EPILOGUE" := "ModioUnrealPlatformEpilogue.h" ]}
    OptionalWrapper.OptionalWrapper_h
  = None.
Proof. vm_compute. reflexivity. Qed.

Section ModioTestsFurther.
Import ModioTests.

Lemma run_idle (es : list LifecycleEvent) :
  ∀ w, pending (Modio w) = [] → run es w = w.
Proof.
  induction es as [| e es IH]; intros w Hidle; cbn; [reflexivity |].
  destruct e as [| ec]; cbn.
  - by apply IH.
  - rewrite Hidle. by apply IH.
Qed.

(** X7: a command started while the SDK holds no other delegate ends up as
    follows: as long as the SDK has not completed it is the started command,
    whatever the number of ticks; afterwards it is what [Callback] makes of
    the first completion's error code, and ticks and later completions
    change nothing any more. *)
Theorem run_after_Start_outcome (w : World) (es : list LifecycleEvent) :
  pending (Modio w) = [] →
  run es (state_after Start w)
  = match first_completion es with
    | None => state_after Start w
    | Some ec => state_after (Callback ec) w
    end.
Proof.
  intros Hidle. induction es as [| e es IH]; [reflexivity |].
  destruct e as [| ec].
  - exact IH.
  - cbn. rewrite Hidle. cbn.
    destruct w as [done test [queue]]; cbn in *; subst queue.
    by apply run_idle.
Qed.

Lemma on_event_errors (e : LifecycleEvent) (w : World) :
  ∃ k : nat, (k ≤ if is_completion e then 1 else 0)%nat
       ∧ errors (CurrentTest (on_event e w))
         = errors (CurrentTest w)
           ++ replicate k "SDK initializes completes without errors".
Proof.
  destruct e as [| ec]; cbn.
  - exists 0. by rewrite app_nil_r.
  - destruct (pending (Modio w)) as [| [] rest]; cbn.
    + exists 0. split; [lia | by rewrite app_nil_r].
    + destruct (ec_to_bool ec); cbn.
      * exists 1. split; [lia | reflexivity].
      * exists 0. split; [lia | by rewrite app_nil_r].
Qed.

(** X8: whatever happens to a command, the errors its test had are kept,
    and all that is ever added is the message of the one assertion, at most
    once for each completion of the SDK. *)
Theorem run_only_adds_assertion_errors
    (es : list LifecycleEvent) (w : World) :
  ∃ k : nat, (k ≤ length (filter (λ e, is_completion e = true) es))%nat
       ∧ errors (CurrentTest (run es w))
         = errors (CurrentTest w)
           ++ replicate k "SDK initializes completes without errors".
Proof.
  revert w. induction es as [| e es IH]; intros w.
  - exists 0. split; [cbn; lia | by rewrite app_nil_r].
  - destruct (on_event_errors e w) as (k1 & Hk1 & Hstep).
    destruct (IH (on_event e w)) as (k2 & Hk2 & Hrest).
    exists (k1 + k2). split.
    + destruct e as [| ec]; cbn [is_completion] in Hk1.
      * change (filter (λ e, is_completion e = true) (EngineTick :: es))
          with (filter (λ e, is_completion e = true) es). lia.
      * change (filter (λ e, is_completion e = true) (SdkCompletes ec :: es))
          with (SdkCompletes ec :: filter (λ e, is_completion e = true) es).
        cbn [length]. lia.
    + change (run (e :: es) w) with (run es (on_event e w)).
      by rewrite Hrest, Hstep, replicate_add, app_assoc.
Qed.

End ModioTestsFurther.

(** A command on an idle SDK that sees a tick, a failed completion, another
    tick and a second completion. *)
Lemma run_after_Start_outcome_witness :
  ModioTests.pending (ModioTests.Modio ModioTests.idle_world) = []
  ∧ ModioTests.run
      [ModioTests.EngineTick;
       ModioTests.SdkCompletes {| ModioTests.ec_value := 20 |};
       ModioTests.EngineTick;
       ModioTests.SdkCompletes {| ModioTests.ec_value := 0 |}]
      (ModioTests.state_after ModioTests.Start ModioTests.idle_world)
    = ModioTests.state_after
        (ModioTests.Callback {| ModioTests.ec_value := 20 |})
        ModioTests.idle_world.
Proof.
  split; [reflexivity |].
  exact (run_after_Start_outcome ModioTests.idle_world
           [ModioTests.EngineTick;
            ModioTests.SdkCompletes {| ModioTests.ec_value := 20 |};
            ModioTests.EngineTick;
            ModioTests.SdkCompletes {| ModioTests.ec_value := 0 |}]
           eq_refl).
Defined.
